(** * Deck builder of the Tissue QA dashboard presentation

    A shallow embedding of [src/create_presentation.py].  The script drives
    the python-pptx object model: it creates a presentation, sets the page
    size, calls twelve slide builders that each append one slide and fill in
    its placeholders, saves the result and prints a confirmation.

    The python-pptx objects are modelled as a store held in the presentation:
    a slide, a shape and a paragraph are references (positions) into it, so
    that a builder mutating the slide it has just appended mutates the
    presentation, as in Python.  Strings are the UTF-8 bytes of the Python
    literals; the prefixes the script tests (a line feed, two spaces) are
    ASCII. *)

From Stdlib Require Import ZArith QArith Ascii.
From stdpp Require Import base list strings gmap.

Close Scope Q_scope.

(** ** Lengths (pptx.util) *)

(** [Inches(x)] and [Pt(x)] are [int(x * 914400)] and [int(x * 12700)]
    English Metric Units.  The decimal literals of the script are taken as
    exact rationals; [int] truncates towards zero. *)
Definition Inches (inches : Q) : Z :=
  Z.quot (Qnum inches * 914400) (Zpos (Qden inches)).

Definition Pt (points : Z) : Z := (points * 12700)%Z.

(** ** Strings *)

Definition nl : string := String "010"%char EmptyString.

(** [s.startswith(p)] *)
Definition startswith (s p : string) : bool := String.prefix p s.

(** [s.split("\n")] *)
Fixpoint split_lines (s : string) : list string :=
  match s with
  | EmptyString => [EmptyString]
  | String c s' =>
      if Ascii.eqb c "010"%char then EmptyString :: split_lines s'
      else match split_lines s' with
           | [] => [String c EmptyString]
           | w :: ws => String c w :: ws
           end
  end.

(** ["\n".join(ls)] *)
Definition join_lines (ls : list string) : string := String.concat nl ls.

(** ** The object model *)

Inductive exn :=
  | IndexError
  | KeyError
  | AttributeError
  | ValueError
  | OSError
  | DanglingReference.  (* a reference into the store that names nothing;
                           no Python object can be in this state *)

Record Paragraph := mkParagraph {
  p_text : string;
  p_level : nat;
  font_bold : option bool;   (* None: inherited *)
  font_size : option Z       (* None: inherited; otherwise EMU *)
}.

Definition new_paragraph : Paragraph :=
  {| p_text := ""; p_level := 0; font_bold := None; font_size := None |}.

Abbreviation TextFrame := (list Paragraph).

(** The slide layouts of the library's default template, in order. *)
Inductive Layout :=
  | TitleSlide | TitleAndContent | SectionHeader | TwoContent | Comparison
  | TitleOnly | Blank | ContentWithCaption | PictureWithCaption
  | TitleAndVerticalText | VerticalTitleAndText.

Definition default_slide_layouts : list Layout :=
  [TitleSlide; TitleAndContent; SectionHeader; TwoContent; Comparison;
   TitleOnly; Blank; ContentWithCaption; PictureWithCaption;
   TitleAndVerticalText; VerticalTitleAndText].

(** The [idx] of the placeholders a new slide inherits from its layout. *)
Definition layout_placeholders (l : Layout) : list nat :=
  match l with
  | TitleSlide | TitleAndContent | SectionHeader
  | TitleAndVerticalText | VerticalTitleAndText => [0; 1]
  | TwoContent | ContentWithCaption | PictureWithCaption => [0; 1; 2]
  | Comparison => [0; 1; 2; 3; 4]
  | TitleOnly => [0]
  | Blank => []
  end.

(** A slide: its layout and its placeholder shapes, each a text frame,
    keyed by placeholder [idx] in document order. *)
Record Slide := mkSlide {
  slide_layout : Layout;
  placeholders : list (nat * TextFrame)
}.

Record Presentation := mkPresentation {
  slide_width : Z;
  slide_height : Z;
  slides : list Slide
}.

(** [Presentation()]: the default template is 10in x 7.5in and empty. *)
Definition Presentation_new : Presentation :=
  {| slide_width := 9144000; slide_height := 6858000; slides := [] |}.

Abbreviation SlideRef := nat.
Abbreviation ShapeRef := (nat * nat)%type.
Abbreviation ParaRef := (nat * nat * nat)%type.

Fixpoint ph_lookup (idx : nat) (phs : list (nat * TextFrame)) : option TextFrame :=
  match phs with
  | [] => None
  | (i, tf) :: phs' => if Nat.eqb i idx then Some tf else ph_lookup idx phs'
  end.

Fixpoint ph_alter (f : TextFrame → TextFrame) (idx : nat)
    (phs : list (nat * TextFrame)) : list (nat * TextFrame) :=
  match phs with
  | [] => []
  | (i, tf) :: phs' =>
      if Nat.eqb i idx then (i, f tf) :: phs' else (i, tf) :: ph_alter f idx phs'
  end.

Definition new_slide (l : Layout) : Slide :=
  {| slide_layout := l;
     placeholders := (λ i, (i, [new_paragraph])) <$> layout_placeholders l |}.

Definition slide_alter_tf (f : TextFrame → TextFrame) (idx : nat) (s : Slide) : Slide :=
  {| slide_layout := slide_layout s;
     placeholders := ph_alter f idx (placeholders s) |}.

(** ** Statements: state and exceptions *)

(** A statement runs on the presentation and either returns a value or
    raises; what it changed before raising stays changed. *)
Definition M (A : Type) : Type := Presentation → (exn + A) * Presentation.

#[global] Instance M_ret : MRet M := λ A a prs, (inr a, prs).
#[global] Instance M_bind : MBind M := λ A B f m prs,
  match m prs with
  | (inl e, prs') => (inl e, prs')
  | (inr a, prs') => f a prs'
  end.

Definition raise {A} (e : exn) : M A := λ prs, (inl e, prs).

Definition deref_slide (s : SlideRef) : M Slide := λ prs,
  match slides prs !! s with
  | Some sl => (inr sl, prs)
  | None => (inl DanglingReference, prs)
  end.

Definition deref_tf (r : ShapeRef) : M TextFrame :=
  sl ← deref_slide r.1;
  match ph_lookup r.2 (placeholders sl) with
  | Some tf => mret tf
  | None => raise DanglingReference
  end.

Definition modify (f : Presentation → Presentation) : M unit := λ prs,
  (inr tt, f prs).

Definition with_slides (f : list Slide → list Slide) (prs : Presentation) : Presentation :=
  {| slide_width := slide_width prs;
     slide_height := slide_height prs;
     slides := f (slides prs) |}.

Definition modify_tf (r : ShapeRef) (f : TextFrame → TextFrame) : M unit :=
  deref_tf r;;
  modify (with_slides (alter (slide_alter_tf f r.2) r.1)).

Definition modify_p (p : ParaRef) (f : Paragraph → Paragraph) : M unit :=
  tf ← deref_tf p.1;
  match tf !! p.2 with
  | Some _ => modify_tf p.1 (alter f p.2)
  | None => raise DanglingReference
  end.

(** [for x in xs: body] *)
Fixpoint for_ {A} (xs : list A) (body : A → M unit) : M unit :=
  match xs with
  | [] => mret tt
  | x :: xs' => body x;; for_ xs' body
  end.

(** ** The library calls the script makes *)

(** [prs.slide_width = w], [prs.slide_height = h] *)
Definition set_slide_width (w : Z) : M unit :=
  modify (λ prs, {| slide_width := w; slide_height := slide_height prs;
                    slides := slides prs |}).

Definition set_slide_height (h : Z) : M unit :=
  modify (λ prs, {| slide_width := slide_width prs; slide_height := h;
                    slides := slides prs |}).

(** [prs.slide_layouts[i]] *)
Definition slide_layouts (i : nat) : M Layout :=
  match default_slide_layouts !! i with
  | Some l => mret l
  | None => raise IndexError
  end.

(** [prs.slides.add_slide(layout)] *)
Definition add_slide (l : Layout) : M SlideRef := λ prs,
  (inr (length (slides prs)), with_slides (λ ss, ss ++ [new_slide l]) prs).

(** [slide.shapes.title]: the placeholder with idx 0, or [None]. *)
Definition shapes_title (s : SlideRef) : M (option ShapeRef) :=
  sl ← deref_slide s;
  mret (match ph_lookup 0 (placeholders sl) with
        | Some _ => Some (s, 0)
        | None => None
        end).

(** [slide.placeholders[idx]] *)
Definition placeholders_get (s : SlideRef) (idx : nat) : M ShapeRef :=
  sl ← deref_slide s;
  match ph_lookup idx (placeholders sl) with
  | Some _ => mret (s, idx)
  | None => raise KeyError
  end.

(** The paragraphs a text frame holds after [tf.text = t]: one per line of
    [t], with no formatting of their own. *)
Definition text_paragraphs (t : string) : TextFrame :=
  (λ line, {| p_text := line; p_level := 0; font_bold := None; font_size := None |})
    <$> split_lines t.

(** [tf.text = t] *)
Definition tf_set_text (tf : ShapeRef) (t : string) : M unit :=
  modify_tf tf (λ _, text_paragraphs t).

(** [shape.text = t], where [shape] may be [None] *)
Definition shape_set_text (shape : option ShapeRef) (t : string) : M unit :=
  match shape with
  | Some r => tf_set_text r t
  | None => raise AttributeError
  end.

(** [shape.text_frame], where [shape] may be [None] *)
Definition text_frame (shape : option ShapeRef) : M ShapeRef :=
  match shape with
  | Some r => mret r
  | None => raise AttributeError
  end.

(** [tf.paragraphs[i]] *)
Definition paragraphs (tf : ShapeRef) (i : nat) : M ParaRef :=
  ps ← deref_tf tf;
  match ps !! i with
  | Some _ => mret (tf, i)
  | None => raise IndexError
  end.

(** [tf.add_paragraph()] *)
Definition add_paragraph (tf : ShapeRef) : M ParaRef :=
  ps ← deref_tf tf;
  modify_tf tf (λ ps, ps ++ [new_paragraph]);;
  mret (tf, length ps).

(** [p.text = t]: the text of the paragraph as assigned. *)
Definition p_set_text (p : ParaRef) (t : string) : M unit :=
  modify_p p (λ q, {| p_text := t; p_level := p_level q;
                      font_bold := font_bold q; font_size := font_size q |}).

(** [p.level = n]: levels 0 to 8 are accepted. *)
Definition p_set_level (p : ParaRef) (n : nat) : M unit :=
  if Nat.leb n 8
  then modify_p p (λ q, {| p_text := p_text q; p_level := n;
                           font_bold := font_bold q; font_size := font_size q |})
  else raise ValueError.

(** [p.font.size = sz] *)
Definition font_set_size (p : ParaRef) (sz : Z) : M unit :=
  modify_p p (λ q, {| p_text := p_text q; p_level := p_level q;
                      font_bold := font_bold q; font_size := Some sz |}).

(** [p.font.bold = b] *)
Definition font_set_bold (p : ParaRef) (b : bool) : M unit :=
  modify_p p (λ q, {| p_text := p_text q; p_level := p_level q;
                      font_bold := Some b; font_size := font_size q |}).

(** ** The slide builders *)

Definition add_title_slide : M SlideRef :=
  slide_layout ← slide_layouts 0;
  slide ← add_slide slide_layout;
  title ← shapes_title slide;
  subtitle ← placeholders_get slide 1;
  shape_set_text title "Tissue Manufacturing QA Dashboard";;
  shape_set_text (Some subtitle)
    ("Comprehensive Quality Analytics & Monitoring System" +:+ nl +:+
     "Real-time Process Control & Performance Insights");;
  (* Style the title *)
  tf ← text_frame title;
  p ← paragraphs tf 0;
  font_set_size p (Pt 44);;
  tf ← text_frame title;
  p ← paragraphs tf 0;
  font_set_bold p true;;
  mret slide.

Definition overview_points : list string :=
  ["Real-time quality monitoring across all production parameters";
   "Advanced analytics with daily averaging for stable insights";
   "Multi-dimensional filtering and data exploration";
   "Automated PDF report generation";
   "Process capability analysis (Cpk)";
   "Trend analysis with statistical control limits";
   "Shift performance comparison";
   "Correlation analysis between parameters"].

Definition overview_body (tf : ShapeRef) (point : string) : M unit :=
  p ← add_paragraph tf;
  p_set_text p point;;
  p_set_level p 1;;
  font_set_size p (Pt 18).

Definition add_overview_slide : M SlideRef :=
  slide_layout ← slide_layouts 1;
  slide ← add_slide slide_layout;
  title ← shapes_title slide;
  shape_set_text title "Dashboard Overview";;
  content ← placeholders_get slide 1;
  tf ← text_frame (Some content);
  tf_set_text tf "Complete Quality Management Solution";;
  for_ overview_points (overview_body tf);;
  mret slide.

(** The two statement groups of [add_key_features_slide]: a paragraph with
    a level, and a bold paragraph with no level of its own. *)
Definition key_features_item (tf : ShapeRef) (t : string) : M unit :=
  p ← add_paragraph tf;
  p_set_text p t;;
  p_set_level p 1.

Definition key_features_heading (tf : ShapeRef) (t : string) : M unit :=
  p ← add_paragraph tf;
  p_set_text p t;;
  font_set_bold p true.

Definition add_key_features_slide : M SlideRef :=
  slide_layout ← slide_layouts 1;
  slide ← add_slide slide_layout;
  title ← shapes_title slide;
  shape_set_text title "Key Features";;
  content ← placeholders_get slide 1;
  tf ← text_frame (Some content);
  tf_set_text tf "1. Data Upload & Processing";;
  p0 ← paragraphs tf 0;
  font_set_bold p0 true;;
  key_features_item tf "• Excel file upload with automatic parsing";;
  key_features_item tf "• Intelligent column mapping";;
  key_features_item tf "• Data validation and error handling";;
  key_features_heading tf (nl +:+ "2. Daily Quality Reports");;
  key_features_item tf "• Comprehensive daily metrics view";;
  key_features_item tf "• Automatic data aggregation";;
  key_features_item tf "• PDF report generation";;
  key_features_heading tf (nl +:+ "3. Advanced Filtering");;
  key_features_item tf "• Date range selection";;
  key_features_item tf "• Shift, Quality, and GSM grade filters";;
  key_features_item tf "• Multi-criteria filtering";;
  mret slide.

Definition metrics : list string :=
  ["GSM (Grammage) - g/m²";
   "Thickness - μm";
   "Bulk - cc/g";
   "Tensile Strength MD/CD - N/m";
   "MD/CD Ratio";
   "Brightness ISO - %";
   "Opacity - %";
   "Moisture Content - %";
   "Stretch/Elongation - %";
   "Wet Tensile - gf/50mm";
   "Wet/Dry Tensile Ratio - %"].

Definition metrics_body (tf : ShapeRef) (metric : string) : M unit :=
  p ← add_paragraph tf;
  p_set_text p ("• " +:+ metric);;
  p_set_level p 1;;
  font_set_size p (Pt 16).

Definition add_metrics_monitored_slide : M SlideRef :=
  slide_layout ← slide_layouts 1;
  slide ← add_slide slide_layout;
  title ← shapes_title slide;
  shape_set_text title "Quality Metrics Monitored";;
  content ← placeholders_get slide 1;
  tf ← text_frame (Some content);
  tf_set_text tf "Core Quality Parameters";;
  p0 ← paragraphs tf 0;
  font_set_bold p0 true;;
  for_ metrics (metrics_body tf);;
  mret slide.

Definition machine_params : list string :=
  ["Machine Speed (Mpm)";
   "Pope Reel Speed (Mpm)";
   "MC Draw";
   "Press Load";
   "Coating Parameters";
   "Machine Creep %"].

Definition fiber_params : list string :=
  ["Short Fiber %";
   "Long Fiber %";
   "Broke %";
   "HW/SW Consistency";
   "HW SR / SW OSR";
   "WSR/DSR (Kg/Hr)"].

Definition machine_parameters_body (tf : ShapeRef) (param : string) : M unit :=
  p ← add_paragraph tf;
  p_set_text p ("• " +:+ param);;
  p_set_level p 1.

Definition add_machine_parameters_slide : M SlideRef :=
  slide_layout ← slide_layouts 1;
  slide ← add_slide slide_layout;
  title ← shapes_title slide;
  shape_set_text title "Machine Parameters & Fiber Composition";;
  content ← placeholders_get slide 1;
  tf ← text_frame (Some content);
  tf_set_text tf "Machine Parameters";;
  p0 ← paragraphs tf 0;
  font_set_bold p0 true;;
  for_ machine_params (machine_parameters_body tf);;
  p ← add_paragraph tf;
  p_set_text p (nl +:+ "Fiber Composition & Consumption");;
  font_set_bold p true;;
  for_ fiber_params (machine_parameters_body tf);;
  mret slide.

Definition trend_features : list string :=
  ["Multiple time views: Hourly, Daily, Weekly, Monthly";
   "Multi-metric selection (up to 4 parameters)";
   "Statistical indicators:";
   "  - Moving averages (customizable period)";
   "  - Control limits (3-sigma)";
   "  - Min/Max/Mean/Median statistics";
   "Interactive charts with zoom and pan";
   "Chart export functionality";
   "CSV data export";
   "Filter selections shown in exports"].

Definition trend_analysis_body (tf : ShapeRef) (feature : string) : M unit :=
  p ← add_paragraph tf;
  p_set_text p feature;;
  p_set_level p (if negb (startswith feature "  ") then 1 else 2);;
  font_set_size p (Pt 16).

Definition add_trend_analysis_slide : M SlideRef :=
  slide_layout ← slide_layouts 1;
  slide ← add_slide slide_layout;
  title ← shapes_title slide;
  shape_set_text title "Trend Analysis Features";;
  content ← placeholders_get slide 1;
  tf ← text_frame (Some content);
  tf_set_text tf "Advanced Trending Capabilities";;
  p0 ← paragraphs tf 0;
  font_set_bold p0 true;;
  for_ trend_features (trend_analysis_body tf);;
  mret slide.

Definition tabs : list string :=
  [nl +:+ "1. Process Performance";
   "  • Process Capability Index (Cpk) analysis";
   "  • Multi-parameter performance radar";
   "  • Quality score trending";
   "  • Daily averaging for stability";
   nl +:+ "2. Statistical Analysis";
   "  • Process stability monitoring";
   "  • Distribution analysis";
   "  • Coefficient of variation";
   "  • Control charts";
   nl +:+ "3. Correlations & Patterns";
   "  • Parameter correlation matrix";
   "  • Top quality issues distribution";
   "  • Pattern recognition";
   nl +:+ "4. Shift Performance";
   "  • Comparative shift analysis";
   "  • Performance benchmarking";
   "  • Production volume tracking"].

Definition advanced_analytics_body (tf : ShapeRef) (item : string) : M unit :=
  p ← add_paragraph tf;
  p_set_text p item;;
  p_set_level p (if startswith item nl then 0 else 1);;
  font_set_size p (Pt 16);;
  if startswith item nl then font_set_bold p true else mret tt.

Definition add_advanced_analytics_slide : M SlideRef :=
  slide_layout ← slide_layouts 1;
  slide ← add_slide slide_layout;
  title ← shapes_title slide;
  shape_set_text title "Advanced Analytics Dashboard";;
  content ← placeholders_get slide 1;
  tf ← text_frame (Some content);
  tf_set_text tf "Four Comprehensive Analysis Tabs";;
  p0 ← paragraphs tf 0;
  font_set_bold p0 true;;
  for_ tabs (advanced_analytics_body tf);;
  mret slide.

Definition insights1 : list string :=
  ["Real-time identification of out-of-spec parameters";
   "Early warning system for process deviations";
   "Cpk > 1.33 indicates excellent process capability";
   "Daily averaging reduces noise in measurements";
   nl +:+ "Operational Efficiency";
   "Shift performance comparison identifies best practices";
   "Machine parameter tracking optimizes settings";
   "Correlation analysis reveals parameter relationships";
   nl +:+ "Data-Driven Decision Making";
   "Historical trend analysis for predictive insights";
   "Statistical control limits for process stability";
   "Comprehensive reporting for management review"].

Definition insights1_body (tf : ShapeRef) (insight : string) : M unit :=
  p ← add_paragraph tf;
  p_set_text p insight;;
  p_set_level p (if startswith insight nl then 0 else 1);;
  font_set_size p (Pt 16);;
  if startswith insight nl then font_set_bold p true else mret tt.

Definition add_insights_slide1 : M SlideRef :=
  slide_layout ← slide_layouts 1;
  slide ← add_slide slide_layout;
  title ← shapes_title slide;
  shape_set_text title "Key Insights & Benefits";;
  content ← placeholders_get slide 1;
  tf ← text_frame (Some content);
  tf_set_text tf "Quality Control Excellence";;
  p0 ← paragraphs tf 0;
  font_set_bold p0 true;;
  for_ insights1 (insights1_body tf);;
  mret slide.

Definition insights2 : list string :=
  ["Moisture content (exclude 0 values for accuracy)";
   "MD/CD ratio for sheet strength balance";
   "Wet/Dry tensile ratio for absorbency";
   "Process stability through control charts";
   nl +:+ "Quality Improvement Opportunities";
   "Parameters frequently out of spec";
   "Shift-to-shift variations";
   "Correlation between defects and parameters";
   "Machine speed vs quality trade-offs";
   nl +:+ "Cost Optimization";
   "Fiber composition optimization";
   "Energy consumption (WSR/DSR rates)";
   "Broke percentage reduction";
   "Machine efficiency improvements"].

Definition insights2_body (tf : ShapeRef) (insight : string) : M unit :=
  p ← add_paragraph tf;
  p_set_text p insight;;
  p_set_level p (if startswith insight nl then 0 else 1);;
  font_set_size p (Pt 16);;
  if startswith insight nl then font_set_bold p true else mret tt.

Definition add_insights_slide2 : M SlideRef :=
  slide_layout ← slide_layouts 1;
  slide ← add_slide slide_layout;
  title ← shapes_title slide;
  shape_set_text title "Process Optimization Insights";;
  content ← placeholders_get slide 1;
  tf ← text_frame (Some content);
  tf_set_text tf "Critical Parameters to Monitor";;
  p0 ← paragraphs tf 0;
  font_set_bold p0 true;;
  for_ insights2 (insights2_body tf);;
  mret slide.

Definition technical_features : list string :=
  ["React 19 with TypeScript";
   "Material-UI v7 for modern UI";
   "Recharts for interactive visualizations";
   "Day.js for date handling";
   "XLSX for Excel file parsing";
   "jsPDF for report generation";
   nl +:+ "Data Processing Features";
   "Automatic column mapping";
   "Intelligent date parsing";
   "Data validation and error handling";
   "Daily averaging algorithms";
   "Statistical calculations";
   nl +:+ "User Experience";
   "Responsive design for all devices";
   "Intuitive navigation";
   "Real-time filtering";
   "Export capabilities";
   "Performance optimized"].

Definition technical_features_body (tf : ShapeRef) (feature : string) : M unit :=
  p ← add_paragraph tf;
  p_set_text p feature;;
  p_set_level p (if startswith feature nl then 0 else 1);;
  font_set_size p (Pt 16);;
  if startswith feature nl then font_set_bold p true else mret tt.

Definition add_technical_features_slide : M SlideRef :=
  slide_layout ← slide_layouts 1;
  slide ← add_slide slide_layout;
  title ← shapes_title slide;
  shape_set_text title "Technical Implementation";;
  content ← placeholders_get slide 1;
  tf ← text_frame (Some content);
  tf_set_text tf "Modern Technology Stack";;
  p0 ← paragraphs tf 0;
  font_set_bold p0 true;;
  for_ technical_features (technical_features_body tf);;
  mret slide.

Definition enhancements : list string :=
  ["Machine Learning Integration";
   "  • Predictive quality alerts";
   "  • Anomaly detection";
   "  • Optimal parameter recommendations";
   nl +:+ "Real-time Data Integration";
   "  • Direct sensor connectivity";
   "  • Live dashboard updates";
   "  • Instant notifications";
   nl +:+ "Advanced Analytics";
   "  • Six Sigma calculations";
   "  • Root cause analysis";
   "  • Predictive maintenance";
   nl +:+ "Integration Capabilities";
   "  • ERP system integration";
   "  • Mobile app development";
   "  • API for third-party access"].

Definition future_enhancements_body (tf : ShapeRef) (item : string) : M unit :=
  p ← add_paragraph tf;
  p_set_text p item;;
  p_set_level p (if negb (startswith item "  ") then 0 else 1);;
  font_set_size p (Pt 16);;
  if negb (startswith item "  ") && negb (String.eqb item "Potential Additions")
  then font_set_bold p true
  else mret tt.

Definition add_future_enhancements_slide : M SlideRef :=
  slide_layout ← slide_layouts 1;
  slide ← add_slide slide_layout;
  title ← shapes_title slide;
  shape_set_text title "Future Enhancement Opportunities";;
  content ← placeholders_get slide 1;
  tf ← text_frame (Some content);
  tf_set_text tf "Potential Additions";;
  p0 ← paragraphs tf 0;
  font_set_bold p0 true;;
  for_ enhancements (future_enhancements_body tf);;
  mret slide.

Definition conclusion_points : list string :=
  [nl +:+ "Key Benefits:";
   "• Improved quality control and consistency";
   "• Data-driven decision making";
   "• Reduced waste and defects";
   "• Enhanced operational efficiency";
   "• Better compliance and reporting";
   nl +:+ "Business Impact:";
   "• Faster identification of quality issues";
   "• Improved customer satisfaction";
   "• Cost reduction through optimization";
   "• Competitive advantage through analytics";
   nl +:+ "Ready for deployment and continuous improvement"].

Definition conclusion_body (tf : ShapeRef) (point : string) : M unit :=
  p ← add_paragraph tf;
  p_set_text p point;;
  p_set_level p (if startswith point nl then 0 else 1);;
  font_set_size p (Pt 18);;
  if startswith point nl then font_set_bold p true else mret tt.

Definition add_conclusion_slide : M SlideRef :=
  slide_layout ← slide_layouts 1;
  slide ← add_slide slide_layout;
  title ← shapes_title slide;
  shape_set_text title "Conclusion";;
  content ← placeholders_get slide 1;
  tf ← text_frame (Some content);
  tf_set_text tf "Comprehensive Quality Management Solution";;
  p0 ← paragraphs tf 0;
  font_set_bold p0 true;;
  p0 ← paragraphs tf 0;
  font_set_size p0 (Pt 20);;
  for_ conclusion_points (conclusion_body tf);;
  mret slide.

(** ** The world outside the script *)

(** What a path holds: a complete document, or the remains of a write
    that failed half-way. *)
Inductive File :=
  | Complete (d : Presentation)
  | Truncated.

(** Whether, and when, writing a path fails. *)
Inductive SaveFault :=
  | NoFault
  | FailBeforeWrite (e : exn)   (* the file cannot be opened: nothing is written *)
  | FailMidWrite (e : exn).     (* the write stops half-way: a truncated file stays *)

Record World := mkWorld {
  cwd : string;
  files : gmap string File;
  stdout : list string;              (* the lines printed so far *)
  save_fault : string → SaveFault
}.

(** A relative path names a file under the working directory. *)
Definition abspath (dir path : string) : string :=
  if startswith path "/" then path else dir +:+ "/" +:+ path.

Definition write_file (path : string) (f : File) (w : World) : World :=
  {| cwd := cwd w; files := <[path := f]> (files w);
     stdout := stdout w; save_fault := save_fault w |}.

(** [prs.save(file)] *)
Definition Presentation_save (prs : Presentation) (file : string) (w : World)
    : (exn + unit) * World :=
  let path := abspath (cwd w) file in
  match save_fault w path with
  | NoFault => (inr tt, write_file path (Complete prs) w)
  | FailBeforeWrite e => (inl e, w)
  | FailMidWrite e => (inl e, write_file path Truncated w)
  end.

(** [print(line)] *)
Definition print (line : string) (w : World) : World :=
  {| cwd := cwd w; files := files w;
     stdout := stdout w ++ [line]; save_fault := save_fault w |}.

(** ** The script *)

(** Lines 493 to 511 of [create_presentation]: the statements that run on
    the presentation object. *)
Definition build_slides : M unit :=
  (* Set slide size to 16:9 *)
  set_slide_width (Inches 13.333%Q);;
  set_slide_height (Inches 7.5%Q);;
  (* Add all slides *)
  add_title_slide;;
  add_overview_slide;;
  add_key_features_slide;;
  add_metrics_monitored_slide;;
  add_machine_parameters_slide;;
  add_trend_analysis_slide;;
  add_advanced_analytics_slide;;
  add_insights_slide1;;
  add_insights_slide2;;
  add_technical_features_slide;;
  add_future_enhancements_slide;;
  add_conclusion_slide;;
  mret tt.

(** A finished call: what it returned or raised, the presentation object
    it built, and the world it leaves. *)
Record Run := mkRun {
  result : exn + string;
  prs : Presentation;
  world : World
}.

Definition create_presentation (w : World) : Run :=
  match build_slides Presentation_new with
  | (inl e, prs) => {| result := inl e; prs := prs; world := w |}
  | (inr _, prs) =>
      (* Save presentation *)
      let filename := "Tissue_QA_Dashboard_Presentation.pptx" in
      match Presentation_save prs filename w with
      | (inl e, w1) => {| result := inl e; prs := prs; world := w1 |}
      | (inr _, w1) =>
          let w2 := print ("Presentation saved as " +:+ filename) w1 in
          {| result := inr filename; prs := prs; world := w2 |}
      end
  end.

(** The slide builders, in the order [create_presentation] calls them. *)
Definition builders : list (M SlideRef) :=
  [add_title_slide; add_overview_slide; add_key_features_slide;
   add_metrics_monitored_slide; add_machine_parameters_slide;
   add_trend_analysis_slide; add_advanced_analytics_slide;
   add_insights_slide1; add_insights_slide2; add_technical_features_slide;
   add_future_enhancements_slide; add_conclusion_slide].

(** ** Observations on the content model *)

(** [shape.text]: the paragraphs of the shape, one per line. *)
Definition shape_text (tf : TextFrame) : string := join_lines (p_text <$> tf).

(** [slide.shapes.title.text] *)
Definition slide_title (s : Slide) : option string :=
  shape_text <$> ph_lookup 0 (placeholders s).

(** The paragraphs of the body placeholder, and those among them that a
    builder appends after the opening paragraph set through [tf.text]. *)
Definition body_frame (s : Slide) : TextFrame :=
  default [] (ph_lookup 1 (placeholders s)).

Definition body_paragraphs (s : Slide) : TextFrame := tail (body_frame s).

(** The presentation object the script builds. *)
Definition document : Presentation := (build_slides Presentation_new).2.

(** The output path of the script, as the working directory resolves it. *)
Definition output_filename : string := "Tissue_QA_Dashboard_Presentation.pptx".

Definition output_path (w : World) : string := abspath (cwd w) output_filename.

(** The paragraph a loop body leaves for a line: the body is run on the
    body placeholder of a fresh content slide and the paragraph it appended
    is read back. *)
Definition paragraph_added (body : ShapeRef → string → M unit) (line : string)
    : option Paragraph :=
  match (slide ← add_slide TitleAndContent; body (slide, 1) line) Presentation_new with
  | (inr _, prs) => s ← last (slides prs); last (body_frame s)
  | (inl _, _) => None
  end.

Definition level_given (body : ShapeRef → string → M unit) (line : string) : option nat :=
  p_level <$> paragraph_added body line.

(** A line with neither of the two prefixes the builders look for. *)
Definition plain_line (line : string) : bool :=
  negb (startswith line nl) && negb (startswith line "  ").

Definition unbolded (p : Paragraph) : Prop := font_bold p ≠ Some true.

(** * Vocabulary of the statements proved below *)

(** The slide a builder works on is the one it has just appended, the last
    of the presentation: [focus w h l s] is the presentation of page size
    [w] by [h] whose slides are [l] followed by [s]. *)
Definition focus (w h : Z) (l : list Slide) (s : Slide) : Presentation :=
  {| slide_width := w; slide_height := h; slides := l ++ [s] |}.

(** [runs w h l m s a s']: statement [m], started on [focus w h l s],
    returns [a] and leaves [focus w h l s']. *)
Definition runs (w h : Z) (l : list Slide) {A} (m : M A)
    (s : Slide) (a : A) (s' : Slide) : Prop :=
  m (focus w h l s) = (inr a, focus w h l s').

(** The slide with paragraph [q] added at the end of placeholder [k]. *)
Definition snoc_paragraph (k : nat) (q : Paragraph) (s : Slide) : Slide :=
  slide_alter_tf (λ ps, ps ++ [q]) k s.

(** A loop body formats its line as [fmt] when, run on any text frame of
    the slide being built, it appends the paragraph [fmt line] and changes
    nothing else. *)
Definition formats (body : ShapeRef → string → M unit) (fmt : string → Paragraph) : Prop :=
  ∀ w h l k s tf line,
    ph_lookup k (placeholders s) = Some tf →
    runs w h l (body (length l, k) line) s tt (snoc_paragraph k (fmt line) s).

(** The paragraph each loop body, or statement group, makes of a line. *)
Definition overview_paragraph (point : string) : Paragraph :=
  {| p_text := point; p_level := 1; font_bold := None; font_size := Some (Pt 18) |}.

Definition key_features_item_paragraph (t : string) : Paragraph :=
  {| p_text := t; p_level := 1; font_bold := None; font_size := None |}.

Definition key_features_heading_paragraph (t : string) : Paragraph :=
  {| p_text := t; p_level := 0; font_bold := Some true; font_size := None |}.

Definition metrics_paragraph (metric : string) : Paragraph :=
  {| p_text := "• " +:+ metric; p_level := 1;
     font_bold := None; font_size := Some (Pt 16) |}.

Definition machine_parameters_paragraph (param : string) : Paragraph :=
  {| p_text := "• " +:+ param; p_level := 1; font_bold := None; font_size := None |}.

Definition trend_analysis_paragraph (feature : string) : Paragraph :=
  {| p_text := feature;
     p_level := if startswith feature "  " then 2 else 1;
     font_bold := None;
     font_size := Some (Pt 16) |}.

(** The rule of the four slides from "Advanced Analytics Dashboard" to
    "Technical Implementation", and of "Conclusion" at another size. *)
Definition heading_or_item (size : Z) (line : string) : Paragraph :=
  {| p_text := line;
     p_level := if startswith line nl then 0 else 1;
     font_bold := if startswith line nl then Some true else None;
     font_size := Some size |}.

Definition future_enhancements_paragraph (item : string) : Paragraph :=
  {| p_text := item;
     p_level := if startswith item "  " then 1 else 0;
     font_bold := if startswith item "  " then None
                  else if String.eqb item "Potential Additions" then None
                       else Some true;
     font_size := Some (Pt 16) |}.

(** A builder appends slide [s]: on every presentation it returns the new
    last position and leaves the presentation with [s] added at the end. *)
Definition appends_slide (b : M SlideRef) (s : Slide) : Prop :=
  ∀ prs, b prs = (inr (length (slides prs)), with_slides (λ ss, ss ++ [s]) prs).

(** The slide a builder adds to an empty presentation. *)
Definition slide_built (b : M SlideRef) : option Slide :=
  last (slides (b Presentation_new).2).

(** Sample worlds: an empty directory that can be written, and one where
    the write breaks off half-way. *)
Definition writable_world : World :=
  {| cwd := "/home/qa"; files := ∅; stdout := []; save_fault := λ _, NoFault |}.

Definition failing_world : World :=
  {| cwd := "/home/qa"; files := ∅; stdout := [];
     save_fault := λ _, FailMidWrite OSError |}.

(** A printed line mentions a name when the name occurs in it. *)
Definition mentions (line name : string) : Prop :=
  ∃ pre post, line = pre +:+ name +:+ post.

(** A slide is titled when its title placeholder holds a non-empty text. *)
Definition titled (s : Slide) : Prop :=
  ∃ t, slide_title s = Some t ∧ t ≠ "".

(** The rule as the specification words it, the same for every slide. *)
Definition uniform_rule (p : Paragraph) : Prop :=
  (startswith (p_text p) nl = true → font_bold p = Some true ∧ p_level p = 0)
  ∧ (startswith (p_text p) "  " = true → p_level p = 2 ∧ unbolded p)
  ∧ (plain_line (p_text p) = true →
     p_level p = 1 ∧ unbolded p
     ∧ ∃ pts, (16 ≤ pts ≤ 18)%Z ∧ font_size p = Some (Pt pts)).

(** The rule the builders follow, by position [i] of the slide (counted
    from 0): a two-space line is at level 2 only on the trend slide (5); a
    line with neither prefix is a bold level-0 paragraph on the future
    enhancements slide (10); the key features (2) and machine parameters (4)
    slides set no font size, the overview (1) and conclusion (11) slides
    set 18pt, the others 16pt. *)
Definition slide_rule (i : nat) (p : Paragraph) : Prop :=
  (startswith (p_text p) nl = true → font_bold p = Some true ∧ p_level p = 0)
  ∧ (startswith (p_text p) "  " = true →
     unbolded p ∧ p_level p = (if Nat.eqb i 5 then 2 else 1))
  ∧ (plain_line (p_text p) = true →
     (i = 10 → font_bold p = Some true ∧ p_level p = 0)
     ∧ (i ≠ 10 → unbolded p ∧ p_level p = 1))
  ∧ font_size p = (if Nat.eqb i 2 || Nat.eqb i 4 then None
                   else if Nat.eqb i 1 || Nat.eqb i 11 then Some (Pt 18)
                        else Some (Pt 16)).

(** The paragraph made of the second entry of [tabs]. *)
Definition tabs_second_paragraph : Paragraph :=
  {| p_text := "  • Process Capability Index (Cpk) analysis";
     p_level := 1; font_bold := None; font_size := Some (Pt 16) |}.

(** The paragraphs the builders appended, each with the position of its
    slide. *)
Definition all_body_paragraphs (d : Presentation) : list (nat * Paragraph) :=
  mjoin (imap (λ i s, (λ p, (i, p)) <$> body_paragraphs s) (slides d)).

(** The slide at a position of the document. *)
Definition nth_slide (i : nat) : Slide :=
  default (new_slide Blank) (slides document !! i).

(** The loops of the builders: each body with the list it runs over. *)
Definition body_loops : list ((ShapeRef → string → M unit) * list string) :=
  [(overview_body, overview_points);
   (metrics_body, metrics);
   (machine_parameters_body, machine_params);
   (machine_parameters_body, fiber_params);
   (trend_analysis_body, trend_features);
   (advanced_analytics_body, tabs);
   (insights1_body, insights1);
   (insights2_body, insights2);
   (technical_features_body, technical_features);
   (future_enhancements_body, enhancements);
   (conclusion_body, conclusion_points)].

(** The default body level of a loop: the level it gives every line that
    has neither prefix. *)
Definition default_level (body : ShapeRef → string → M unit) (d : nat) : Prop :=
  ∀ line, plain_line line = true → level_given body line = Some d.

(** The second entry of [tabs], a two-space line. *)
Definition tabs_second_line : string :=
  "  • Process Capability Index (Cpk) analysis".

(** A world whose directory already holds a file of notes and the
    truncated remains of an earlier output file. *)
Definition cluttered_world : World :=
  {| cwd := "/home/qa";
     files := <["/home/qa/notes.txt" := Truncated]>
                (<["/home/qa/Tissue_QA_Dashboard_Presentation.pptx" := Truncated]> ∅);
     stdout := ["earlier output"];
     save_fault := λ _, NoFault |}.

(** The line a successful run prints. *)
Definition confirmation_line : string :=
  "Presentation saved as Tissue_QA_Dashboard_Presentation.pptx".

(** * Reasoning about statements *)

Lemma lookup_snoc {A} (l : list A) (x : A) : (l ++ [x]) !! length l = Some x.
Proof. induction l as [|y l IH]; [reflexivity | exact IH]. Qed.

Lemma alter_snoc {A} (f : A → A) (l : list A) (x : A) :
  alter f (length l) (l ++ [x]) = l ++ [f x].
Proof.
  induction l as [|y l IH]; [reflexivity |].
  cbn. f_equal. exact IH.
Qed.

Lemma ph_lookup_alter f k phs :
  ph_lookup k (ph_alter f k phs) = f <$> ph_lookup k phs.
Proof.
  induction phs as [|[i tf] phs IH]; [reflexivity |].
  cbn. destruct (Nat.eqb i k) eqn:E; cbn; rewrite E; [reflexivity | exact IH].
Qed.

Lemma ph_alter_compose f g k phs :
  ph_alter f k (ph_alter g k phs) = ph_alter (f ∘ g) k phs.
Proof.
  induction phs as [|[i tf] phs IH]; [reflexivity |].
  cbn. destruct (Nat.eqb i k) eqn:E; cbn; rewrite E; [reflexivity |].
  f_equal. exact IH.
Qed.

Lemma ph_alter_ext f g k phs :
  (∀ tf, ph_lookup k phs = Some tf → f tf = g tf) →
  ph_alter f k phs = ph_alter g k phs.
Proof.
  induction phs as [|[i tf] phs IH]; [reflexivity |].
  cbn. destruct (Nat.eqb i k) eqn:E; intros H.
  - rewrite (H tf eq_refl). reflexivity.
  - f_equal. apply IH, H.
Qed.

(** In this section the page size and the slides before the last one are
    fixed; a reference to the last slide is its position [here]. *)
Section focus.
Variables (w h : Z) (l : list Slide).

#[local] Abbreviation focus := (focus w h l).
#[local] Abbreviation runs := (runs w h l).
#[local] Abbreviation here := (length l).

Lemma runs_ret {A} (a : A) s : runs (mret a) s a s.
Proof. reflexivity. Qed.

Lemma runs_bind {A B} (m : M A) (f : A → M B) s a s1 b s2 :
  runs m s a s1 → runs (f a) s1 b s2 → runs (m ≫= f) s b s2.
Proof.
  unfold runs. intros Hm Hf. unfold mbind, M_bind. rewrite Hm. exact Hf.
Qed.

Lemma runs_deref_slide s : runs (deref_slide here) s s s.
Proof. unfold runs, deref_slide. cbn. rewrite lookup_snoc. reflexivity. Qed.

Lemma runs_deref_tf k s tf :
  ph_lookup k (placeholders s) = Some tf → runs (deref_tf (here, k)) s tf s.
Proof.
  intros Hk. unfold deref_tf. eapply runs_bind; [apply runs_deref_slide |].
  cbn. rewrite Hk. apply runs_ret.
Qed.

Lemma runs_modify_tf k f s tf :
  ph_lookup k (placeholders s) = Some tf →
  runs (modify_tf (here, k) f) s tt (slide_alter_tf f k s).
Proof.
  intros Hk. unfold modify_tf. eapply runs_bind; [apply runs_deref_tf, Hk |].
  unfold runs, modify, with_slides, focus. cbn. rewrite alter_snoc. reflexivity.
Qed.


Lemma runs_modify_p k i f s tf q :
  ph_lookup k (placeholders s) = Some tf → tf !! i = Some q →
  runs (modify_p (here, k, i) f) s tt (slide_alter_tf (alter f i) k s).
Proof.
  intros Hk Hi. unfold modify_p.
  eapply runs_bind; [apply runs_deref_tf, Hk |].
  cbn. rewrite Hi. eapply runs_modify_tf, Hk.
Qed.

Lemma runs_shapes_title s :
  runs (shapes_title here) s
    (match ph_lookup 0 (placeholders s) with
     | Some _ => Some (here, 0)
     | None => None
     end) s.
Proof.
  unfold shapes_title. eapply runs_bind; [apply runs_deref_slide |].
  apply runs_ret.
Qed.

Lemma runs_placeholders_get k s tf :
  ph_lookup k (placeholders s) = Some tf →
  runs (placeholders_get here k) s (here, k) s.
Proof.
  intros Hk. unfold placeholders_get.
  eapply runs_bind; [apply runs_deref_slide |].
  cbn. rewrite Hk. apply runs_ret.
Qed.

Lemma runs_tf_set_text k t s tf :
  ph_lookup k (placeholders s) = Some tf →
  runs (tf_set_text (here, k) t) s tt (slide_alter_tf (λ _, text_paragraphs t) k s).
Proof. apply runs_modify_tf. Qed.

Lemma runs_shape_set_text k t s tf :
  ph_lookup k (placeholders s) = Some tf →
  runs (shape_set_text (Some (here, k)) t) s tt
    (slide_alter_tf (λ _, text_paragraphs t) k s).
Proof. apply runs_tf_set_text. Qed.

Lemma runs_text_frame r s : runs (text_frame (Some r)) s r s.
Proof. apply runs_ret. Qed.

Lemma runs_paragraphs k i s tf q :
  ph_lookup k (placeholders s) = Some tf → tf !! i = Some q →
  runs (paragraphs (here, k) i) s (here, k, i) s.
Proof.
  intros Hk Hi. unfold paragraphs.
  eapply runs_bind; [apply runs_deref_tf, Hk |].
  cbn. rewrite Hi. apply runs_ret.
Qed.

Lemma runs_add_paragraph k s tf :
  ph_lookup k (placeholders s) = Some tf →
  runs (add_paragraph (here, k)) s (here, k, length tf)
    (slide_alter_tf (λ ps, ps ++ [new_paragraph]) k s).
Proof.
  intros Hk. unfold add_paragraph.
  eapply runs_bind; [apply runs_deref_tf, Hk |].
  eapply runs_bind; [eapply runs_modify_tf, Hk |].
  apply runs_ret.
Qed.

Lemma runs_for_nil {A} (body : A → M unit) s : runs (for_ [] body) s tt s.
Proof. apply runs_ret. Qed.

Lemma runs_for_cons {A} (body : A → M unit) x xs s s1 s2 :
  runs (body x) s tt s1 → runs (for_ xs body) s1 tt s2 →
  runs (for_ (x :: xs) body) s tt s2.
Proof. intros Hx Hxs. cbn. eapply runs_bind; [exact Hx | exact Hxs]. Qed.


(** *** Statements on the paragraph just appended *)

Lemma runs_add_paragraph_snoc k s tf :
  ph_lookup k (placeholders s) = Some tf →
  runs (add_paragraph (here, k)) s (here, k, length tf)
    (snoc_paragraph k new_paragraph s).
Proof. apply runs_add_paragraph. Qed.

Lemma runs_modify_last k f s tf q :
  ph_lookup k (placeholders s) = Some tf →
  runs (modify_p (here, k, length tf) f) (snoc_paragraph k q s) tt
    (snoc_paragraph k (f q) s).
Proof.
  intros Hk.
  assert (Hs : slide_alter_tf (alter f (length tf)) k (snoc_paragraph k q s)
               = snoc_paragraph k (f q) s).
  { unfold snoc_paragraph, slide_alter_tf. cbn. f_equal.
    rewrite ph_alter_compose. apply ph_alter_ext.
    intros tf' Htf'. rewrite Hk in Htf'. injection Htf' as <-.
    cbn. apply alter_snoc. }
  rewrite <- Hs. eapply runs_modify_p.
  - unfold snoc_paragraph. cbn. rewrite ph_lookup_alter, Hk. reflexivity.
  - apply lookup_snoc.
Qed.

Lemma runs_p_set_text_last k t s tf q :
  ph_lookup k (placeholders s) = Some tf →
  runs (p_set_text (here, k, length tf) t) (snoc_paragraph k q s) tt
    (snoc_paragraph k {| p_text := t; p_level := p_level q;
                         font_bold := font_bold q; font_size := font_size q |} s).
Proof. intros Hk. exact (runs_modify_last k _ s tf q Hk). Qed.

Lemma runs_p_set_level_last k n s tf q :
  n ≤ 8 → ph_lookup k (placeholders s) = Some tf →
  runs (p_set_level (here, k, length tf) n) (snoc_paragraph k q s) tt
    (snoc_paragraph k {| p_text := p_text q; p_level := n;
                         font_bold := font_bold q; font_size := font_size q |} s).
Proof.
  intros Hn Hk. unfold p_set_level.
  apply Nat.leb_le in Hn. rewrite Hn.
  exact (runs_modify_last k _ s tf q Hk).
Qed.

Lemma runs_font_set_size_last k sz s tf q :
  ph_lookup k (placeholders s) = Some tf →
  runs (font_set_size (here, k, length tf) sz) (snoc_paragraph k q s) tt
    (snoc_paragraph k {| p_text := p_text q; p_level := p_level q;
                         font_bold := font_bold q; font_size := Some sz |} s).
Proof. intros Hk. exact (runs_modify_last k _ s tf q Hk). Qed.

Lemma runs_font_set_bold_last k b s tf q :
  ph_lookup k (placeholders s) = Some tf →
  runs (font_set_bold (here, k, length tf) b) (snoc_paragraph k q s) tt
    (snoc_paragraph k {| p_text := p_text q; p_level := p_level q;
                         font_bold := Some b; font_size := font_size q |} s).
Proof. intros Hk. exact (runs_modify_last k _ s tf q Hk). Qed.

End focus.

Lemma snoc_paragraph_lookup k q s tf :
  ph_lookup k (placeholders s) = Some tf →
  ph_lookup k (placeholders (snoc_paragraph k q s)) = Some (tf ++ [q]).
Proof.
  intros Hk. unfold snoc_paragraph. cbn. rewrite ph_lookup_alter, Hk. reflexivity.
Qed.

Lemma snoc_paragraphs k qs q s :
  slide_alter_tf (λ ps, ps ++ qs) k (snoc_paragraph k q s)
  = slide_alter_tf (λ ps, ps ++ q :: qs) k s.
Proof.
  unfold snoc_paragraph, slide_alter_tf. cbn. f_equal.
  rewrite ph_alter_compose. apply ph_alter_ext. intros tf _. cbn.
  rewrite <- app_assoc. reflexivity.
Qed.

Lemma slide_alter_tf_id k s :
  slide_alter_tf (λ ps, ps ++ []) k s = s.
Proof.
  destruct s as [lay phs]. unfold slide_alter_tf. cbn. f_equal.
  induction phs as [|[i tf] phs IH]; [reflexivity |].
  cbn. destruct (Nat.eqb i k); [rewrite app_nil_r; reflexivity |].
  f_equal. exact IH.
Qed.

(** The loop over a list of lines appends their paragraphs in order. *)
Lemma runs_for_formats body fmt w h l k lines :
  formats body fmt →
  ∀ s tf, ph_lookup k (placeholders s) = Some tf →
    runs w h l (for_ lines (body (length l, k))) s tt
      (slide_alter_tf (λ ps, ps ++ (fmt <$> lines)) k s).
Proof.
  intros Hbody. induction lines as [|line lines IH]; intros s tf Hk.
  - cbn. rewrite slide_alter_tf_id. apply runs_ret.
  - eapply runs_for_cons; [eapply Hbody, Hk |].
    cbn. rewrite <- snoc_paragraphs.
    eapply IH, snoc_paragraph_lookup, Hk.
Qed.

(** ** The loop bodies *)

Ltac body_prim Hk :=
  lazymatch goal with
  | |- runs _ _ _ (mret _) _ _ _ => apply runs_ret
  | |- runs _ _ _ (add_paragraph _) _ _ _ => eapply runs_add_paragraph_snoc, Hk
  | |- runs _ _ _ (p_set_text _ _) _ _ _ => eapply runs_p_set_text_last, Hk
  | |- runs _ _ _ (p_set_level _ _) _ _ _ =>
      eapply runs_p_set_level_last; [cbn; lia | exact Hk]
  | |- runs _ _ _ (font_set_size _ _) _ _ _ => eapply runs_font_set_size_last, Hk
  | |- runs _ _ _ (font_set_bold _ _) _ _ _ => eapply runs_font_set_bold_last, Hk
  end.

Ltac body_stmts Hk :=
  repeat lazymatch goal with
         | |- runs _ _ _ (mbind _ _) _ _ _ =>
             eapply runs_bind; [body_prim Hk | cbn [negb andb]]
         | |- runs _ _ _ _ _ _ _ => body_prim Hk
         end.

Lemma overview_body_formats : formats overview_body overview_paragraph.
Proof. intros w h l k s tf line Hk. unfold overview_body. body_stmts Hk. Qed.

Lemma key_features_item_formats :
  formats key_features_item key_features_item_paragraph.
Proof. intros w h l k s tf line Hk. unfold key_features_item. body_stmts Hk. Qed.

Lemma key_features_heading_formats :
  formats key_features_heading key_features_heading_paragraph.
Proof. intros w h l k s tf line Hk. unfold key_features_heading. body_stmts Hk. Qed.

Lemma metrics_body_formats : formats metrics_body metrics_paragraph.
Proof. intros w h l k s tf line Hk. unfold metrics_body. body_stmts Hk. Qed.

Lemma machine_parameters_body_formats :
  formats machine_parameters_body machine_parameters_paragraph.
Proof. intros w h l k s tf line Hk. unfold machine_parameters_body. body_stmts Hk. Qed.

Lemma trend_analysis_body_formats :
  formats trend_analysis_body trend_analysis_paragraph.
Proof.
  intros w h l k s tf line Hk.
  unfold trend_analysis_body, trend_analysis_paragraph.
  destruct (startswith line "  "); body_stmts Hk.
Qed.

Lemma advanced_analytics_body_formats :
  formats advanced_analytics_body (heading_or_item (Pt 16)).
Proof.
  intros w h l k s tf line Hk.
  unfold advanced_analytics_body, heading_or_item.
  destruct (startswith line nl); body_stmts Hk.
Qed.

Lemma insights1_body_formats : formats insights1_body (heading_or_item (Pt 16)).
Proof.
  intros w h l k s tf line Hk. unfold insights1_body, heading_or_item.
  destruct (startswith line nl); body_stmts Hk.
Qed.

Lemma insights2_body_formats : formats insights2_body (heading_or_item (Pt 16)).
Proof.
  intros w h l k s tf line Hk. unfold insights2_body, heading_or_item.
  destruct (startswith line nl); body_stmts Hk.
Qed.

Lemma technical_features_body_formats :
  formats technical_features_body (heading_or_item (Pt 16)).
Proof.
  intros w h l k s tf line Hk. unfold technical_features_body, heading_or_item.
  destruct (startswith line nl); body_stmts Hk.
Qed.

Lemma future_enhancements_body_formats :
  formats future_enhancements_body future_enhancements_paragraph.
Proof.
  intros w h l k s tf line Hk.
  unfold future_enhancements_body, future_enhancements_paragraph.
  destruct (startswith line "  "), (String.eqb line "Potential Additions");
    body_stmts Hk.
Qed.

Lemma conclusion_body_formats : formats conclusion_body (heading_or_item (Pt 18)).
Proof.
  intros w h l k s tf line Hk. unfold conclusion_body, heading_or_item.
  destruct (startswith line nl); body_stmts Hk.
Qed.

Create HintDb formats.
#[local] Hint Resolve overview_body_formats metrics_body_formats
  machine_parameters_body_formats trend_analysis_body_formats
  advanced_analytics_body_formats insights1_body_formats insights2_body_formats
  technical_features_body_formats future_enhancements_body_formats
  conclusion_body_formats : formats.

(** What a loop body appends, read back from a fresh content slide. *)
Lemma formats_paragraph_added body fmt line :
  formats body fmt → paragraph_added body line = Some (fmt line).
Proof.
  intros Hbody. unfold paragraph_added.
  pose proof (Hbody 9144000%Z 6858000%Z [] 1 (new_slide TitleAndContent)
                [new_paragraph] line eq_refl) as Hrun.
  unfold runs in Hrun.
  change ((slide ← add_slide TitleAndContent; body (slide, 1) line) Presentation_new)
    with (body (length (@nil Slide), 1) line
            (focus 9144000 6858000 [] (new_slide TitleAndContent))).
  rewrite Hrun. reflexivity.
Qed.

(** ** What each builder does to a presentation *)

Lemma appends_slide_built b s : appends_slide b s → slide_built b = Some s.
Proof. intros Hb. unfold slide_built. rewrite Hb. reflexivity. Qed.

Lemma builder_appends i lay (rest : SlideRef → M SlideRef) s :
  default_slide_layouts !! i = Some lay →
  (∀ w h l, runs w h l (rest (length l)) (new_slide lay) (length l) s) →
  appends_slide (slide_layout ← slide_layouts i;
                 slide ← add_slide slide_layout; rest slide) s.
Proof.
  intros Hlay Hrest [w h l].
  unfold mbind, M_bind, slide_layouts. rewrite Hlay. cbn.
  exact (Hrest w h l).
Qed.

Ltac side := lazy; reflexivity.

Ltac run_prim :=
  lazymatch goal with
  | |- runs _ _ _ (mret _) _ _ _ => apply runs_ret
  | |- runs _ _ _ (shapes_title _) _ _ _ => apply runs_shapes_title
  | |- runs _ _ _ (text_frame _) _ _ _ => apply runs_text_frame
  | |- runs _ _ _ (placeholders_get _ _) _ _ _ => eapply runs_placeholders_get; side
  | |- runs _ _ _ (shape_set_text _ _) _ _ _ => eapply runs_shape_set_text; side
  | |- runs _ _ _ (tf_set_text _ _) _ _ _ => eapply runs_tf_set_text; side
  | |- runs _ _ _ (paragraphs _ _) _ _ _ => eapply runs_paragraphs; side
  | |- runs _ _ _ (for_ _ _) _ _ _ =>
      eapply runs_for_formats; [solve [eauto with formats] | side]
  | |- runs _ _ _ (key_features_item _ _) _ _ _ =>
      eapply key_features_item_formats; side
  | |- runs _ _ _ (key_features_heading _ _) _ _ _ =>
      eapply key_features_heading_formats; side
  | |- runs _ _ _ (add_paragraph _) _ _ _ => eapply runs_add_paragraph_snoc; side
  | |- runs _ _ _ (p_set_text _ _) (snoc_paragraph _ _ _) _ _ =>
      eapply runs_p_set_text_last; side
  | |- runs _ _ _ (font_set_bold _ _) (snoc_paragraph _ _ _) _ _ =>
      eapply runs_font_set_bold_last; side
  | |- runs _ _ _ (font_set_size _ _) _ _ _ => eapply runs_modify_p; side
  | |- runs _ _ _ (font_set_bold _ _) _ _ _ => eapply runs_modify_p; side
  end.

Ltac run_stmts :=
  repeat lazymatch goal with
         | |- runs _ _ _ (mbind _ _) _ _ _ =>
             eapply runs_bind; [run_prim | cbv beta]
         | |- runs _ _ _ _ _ _ _ => run_prim
         end.

Ltac run_builder :=
  eexists; eapply builder_appends; [reflexivity | intros ? ? ?; run_stmts].

Lemma add_title_slide_appends : ∃ s, appends_slide add_title_slide s.
Proof. unfold add_title_slide. run_builder. Qed.

Lemma add_overview_slide_appends : ∃ s, appends_slide add_overview_slide s.
Proof. unfold add_overview_slide. run_builder. Qed.

Lemma add_key_features_slide_appends : ∃ s, appends_slide add_key_features_slide s.
Proof. unfold add_key_features_slide. run_builder. Qed.

Lemma add_metrics_monitored_slide_appends :
  ∃ s, appends_slide add_metrics_monitored_slide s.
Proof. unfold add_metrics_monitored_slide. run_builder. Qed.

Lemma add_machine_parameters_slide_appends :
  ∃ s, appends_slide add_machine_parameters_slide s.
Proof. unfold add_machine_parameters_slide. run_builder. Qed.

Lemma add_trend_analysis_slide_appends :
  ∃ s, appends_slide add_trend_analysis_slide s.
Proof. unfold add_trend_analysis_slide. run_builder. Qed.

Lemma add_advanced_analytics_slide_appends :
  ∃ s, appends_slide add_advanced_analytics_slide s.
Proof. unfold add_advanced_analytics_slide. run_builder. Qed.

Lemma add_insights_slide1_appends : ∃ s, appends_slide add_insights_slide1 s.
Proof. unfold add_insights_slide1. run_builder. Qed.

Lemma add_insights_slide2_appends : ∃ s, appends_slide add_insights_slide2 s.
Proof. unfold add_insights_slide2. run_builder. Qed.

Lemma add_technical_features_slide_appends :
  ∃ s, appends_slide add_technical_features_slide s.
Proof. unfold add_technical_features_slide. run_builder. Qed.

Lemma add_future_enhancements_slide_appends :
  ∃ s, appends_slide add_future_enhancements_slide s.
Proof. unfold add_future_enhancements_slide. run_builder. Qed.

Lemma add_conclusion_slide_appends : ∃ s, appends_slide add_conclusion_slide s.
Proof. unfold add_conclusion_slide. run_builder. Qed.

(** Every builder runs to the end on every presentation and appends the
    slide it builds on an empty one. *)
Lemma builders_append :
  Forall (λ b, ∃ s, slide_built b = Some s ∧ appends_slide b s) builders.
Proof.
  assert (Hs : ∀ b, (∃ s, appends_slide b s) →
                    ∃ s, slide_built b = Some s ∧ appends_slide b s).
  { intros b [s Hb]. exists s. split; [apply appends_slide_built, Hb | exact Hb]. }
  unfold builders. repeat constructor; apply Hs.
  - apply add_title_slide_appends.
  - apply add_overview_slide_appends.
  - apply add_key_features_slide_appends.
  - apply add_metrics_monitored_slide_appends.
  - apply add_machine_parameters_slide_appends.
  - apply add_trend_analysis_slide_appends.
  - apply add_advanced_analytics_slide_appends.
  - apply add_insights_slide1_appends.
  - apply add_insights_slide2_appends.
  - apply add_technical_features_slide_appends.
  - apply add_future_enhancements_slide_appends.
  - apply add_conclusion_slide_appends.
Qed.

(** * The script as a whole *)

Lemma build_slides_document : build_slides Presentation_new = (inr tt, document).
Proof. vm_compute. reflexivity. Qed.

(** Whatever the world, the script has built [document] when it stops. *)
Lemma create_presentation_prs w : prs (create_presentation w) = document.
Proof.
  unfold create_presentation. rewrite build_slides_document.
  destruct (Presentation_save _ _ w) as [[e | u] w1]; reflexivity.
Qed.

Lemma document_length : length (slides document) = 12.
Proof. vm_compute. reflexivity. Qed.

(** The three courses of a call, by what the file system does. *)
Lemma create_presentation_saved w :
  save_fault w (output_path w) = NoFault →
  create_presentation w =
    {| result := inr output_filename;
       prs := document;
       world := print ("Presentation saved as " +:+ output_filename)
                  (write_file (output_path w) (Complete document) w) |}.
Proof.
  intros Hok. unfold create_presentation. rewrite build_slides_document.
  unfold Presentation_save. fold output_filename. fold (output_path w).
  rewrite Hok. reflexivity.
Qed.

Lemma create_presentation_fail_before w e :
  save_fault w (output_path w) = FailBeforeWrite e →
  create_presentation w = {| result := inl e; prs := document; world := w |}.
Proof.
  intros Hf. unfold create_presentation. rewrite build_slides_document.
  unfold Presentation_save. fold output_filename. fold (output_path w).
  rewrite Hf. reflexivity.
Qed.

Lemma create_presentation_fail_mid w e :
  save_fault w (output_path w) = FailMidWrite e →
  create_presentation w =
    {| result := inl e; prs := document;
       world := write_file (output_path w) Truncated w |}.
Proof.
  intros Hf. unfold create_presentation. rewrite build_slides_document.
  unfold Presentation_save. fold output_filename. fold (output_path w).
  rewrite Hf. reflexivity.
Qed.

(** * The claims *)

(** C1: every run of [create_presentation] leaves a document of exactly
    twelve slides whose titles are, in order, those the twelve builder calls
    set; slide 1 is "Tissue Manufacturing QA Dashboard", slide 4 is
    "Quality Metrics Monitored", and the slide at each position is the one
    the builder called at that position builds. *)
Theorem create_presentation_twelve_slides :
  ∀ w,
    let d := prs (create_presentation w) in
    length (slides d) = 12
    ∧ slide_title <$> slides d =
        [Some "Tissue Manufacturing QA Dashboard";
         Some "Dashboard Overview";
         Some "Key Features";
         Some "Quality Metrics Monitored";
         Some "Machine Parameters & Fiber Composition";
         Some "Trend Analysis Features";
         Some "Advanced Analytics Dashboard";
         Some "Key Insights & Benefits";
         Some "Process Optimization Insights";
         Some "Technical Implementation";
         Some "Future Enhancement Opportunities";
         Some "Conclusion"]
    ∧ slides d !! 0 ≫= slide_title = Some "Tissue Manufacturing QA Dashboard"
    ∧ slides d !! 3 ≫= slide_title = Some "Quality Metrics Monitored"
    ∧ Some <$> slides d = slide_built <$> builders.
Proof.
  intros w d. subst d. rewrite create_presentation_prs.
  repeat split; vm_compute; reflexivity.
Qed.

(** C9: two runs of [create_presentation], in whatever worlds, build the
    same presentation object: the same slides, titles, paragraph texts,
    levels, bold flags and font sizes. *)
Theorem create_presentation_deterministic :
  ∀ w1 w2, prs (create_presentation w1) = prs (create_presentation w2).
Proof. intros w1 w2. rewrite !create_presentation_prs. reflexivity. Qed.

(** C2: [create_presentation] has no parameter but the world it runs in.
    When the file can be written it writes the document to
    "Tissue_QA_Dashboard_Presentation.pptx" under the working directory,
    returns that relative path, and prints exactly one line, which contains
    the file name. *)
Theorem create_presentation_writes_and_reports :
  ∀ w,
    save_fault w (output_path w) = NoFault →
    let r := create_presentation w in
    result r = inr "Tissue_QA_Dashboard_Presentation.pptx"
    ∧ output_path w = cwd w +:+ "/" +:+ "Tissue_QA_Dashboard_Presentation.pptx"
    ∧ files (world r) = <[output_path w := Complete (prs r)]> (files w)
    ∧ ∃ line, stdout (world r) = stdout w ++ [line]
              ∧ mentions line "Tissue_QA_Dashboard_Presentation.pptx"
              ∧ split_lines line = [line].
Proof.
  intros w Hok r. subst r. rewrite (create_presentation_saved w Hok). cbn.
  repeat split.
  exists ("Presentation saved as " +:+ output_filename). repeat split.
  exists "Presentation saved as ", "". reflexivity.
Qed.

Lemma create_presentation_writes_and_reports_witness :
  save_fault writable_world (output_path writable_world) = NoFault
  ∧ result (create_presentation writable_world)
    = inr "Tissue_QA_Dashboard_Presentation.pptx".
Proof.
  split; [reflexivity |].
  exact (proj1 (create_presentation_writes_and_reports writable_world eq_refl)).
Defined.

(** C8: a failure of the save is not handled.  The exception the save
    raises is the exception the call raises; nothing is printed and no
    path is returned; the file is left as the failed write left it (as it
    was, or truncated, with no rollback).  The confirmation line is printed
    only by a run whose save succeeded. *)
Theorem create_presentation_save_failure_propagates :
  ∀ w e,
    save_fault w (output_path w) = FailBeforeWrite e
    ∨ save_fault w (output_path w) = FailMidWrite e →
    let r := create_presentation w in
    result r = inl e
    ∧ (∀ path, result r ≠ inr path)
    ∧ stdout (world r) = stdout w
    ∧ (save_fault w (output_path w) = FailBeforeWrite e →
       files (world r) = files w)
    ∧ (save_fault w (output_path w) = FailMidWrite e →
       files (world r) !! output_path w = Some Truncated)
    ∧ (∀ w', stdout (world (create_presentation w')) ≠ stdout w' →
             save_fault w' (output_path w') = NoFault).
Proof.
  intros w e Hf r. subst r.
  assert (Hprinted : ∀ w', stdout (world (create_presentation w')) ≠ stdout w' →
                           save_fault w' (output_path w') = NoFault).
  { intros w' Hout. destruct (save_fault w' (output_path w')) as [|e'|e'] eqn:Hs.
    - reflexivity.
    - rewrite (create_presentation_fail_before w' e' Hs) in Hout. done.
    - rewrite (create_presentation_fail_mid w' e' Hs) in Hout. done. }
  destruct Hf as [Hf | Hf].
  - rewrite (create_presentation_fail_before w e Hf).
    cbn [result world stdout files].
    split; [reflexivity |]. split; [discriminate |]. split; [reflexivity |].
    split; [reflexivity |]. split; [congruence | exact Hprinted].
  - rewrite (create_presentation_fail_mid w e Hf).
    cbn [result world stdout files write_file].
    split; [reflexivity |]. split; [discriminate |]. split; [reflexivity |].
    split; [congruence |]. split; [| exact Hprinted].
    intros _. apply lookup_insert_eq.
Qed.

Lemma create_presentation_save_failure_propagates_witness :
  (save_fault failing_world (output_path failing_world) = FailBeforeWrite OSError
   ∨ save_fault failing_world (output_path failing_world) = FailMidWrite OSError)
  ∧ result (create_presentation failing_world) = inl OSError.
Proof.
  split; [right; reflexivity |].
  exact (proj1 (create_presentation_save_failure_propagates
                  failing_world OSError (or_intror eq_refl))).
Defined.

Lemma builders_built_titled :
  Forall (λ b, ∃ s, slide_built b = Some s ∧ titled s) builders.
Proof.
  unfold builders.
  repeat constructor;
    (eexists; split; [vm_compute; reflexivity |];
     eexists; split; [vm_compute; reflexivity | discriminate]).
Qed.

(** Each builder call keeps the slides there were and adds a titled one. *)
Lemma builders_keep_titled :
  Forall (λ b : M SlideRef, ∀ prs,
            Forall titled (slides prs) →
            ∃ r prs', b prs = (inr r, prs') ∧ Forall titled (slides prs'))
         builders.
Proof.
  pose proof builders_append as Happ. pose proof builders_built_titled as Htit.
  induction Happ as [|b bs [s [Hs Hb]] _ IH]; [constructor |].
  apply Forall_cons in Htit as [[s' [Hs' Ht]] Htit].
  constructor; [| exact (IH Htit)].
  intros prs Hprs. rewrite Hs in Hs'. injection Hs' as <-.
  eexists _, _. split; [apply Hb |].
  cbn. apply Forall_app. split; [exact Hprs | repeat constructor; exact Ht].
Qed.

(** C4: every slide of the generated document has a non-empty title, and
    the property is an invariant of the builders: called on a presentation
    whose slides are all titled, each builder returns and leaves a
    presentation whose slides are all titled. *)
Theorem every_slide_titled :
  ∀ b d,
    b ∈ builders →
    Forall titled (slides d) →
    (∃ r d', b d = (inr r, d') ∧ Forall titled (slides d'))
    ∧ ∀ w, Forall titled (slides (prs (create_presentation w))).
Proof.
  intros b d Hb Hd. split.
  - pose proof builders_keep_titled as Hall.
    rewrite Forall_forall in Hall. exact (Hall b Hb d Hd).
  - intros w. rewrite create_presentation_prs.
    assert (Hdoc : ∃ ss, slides document = ss ∧ Forall titled ss).
    { eexists. split; [vm_compute; reflexivity |].
      repeat constructor;
        (eexists; split; [vm_compute; reflexivity | discriminate]). }
    destruct Hdoc as [ss [-> Hss]]. exact Hss.
Qed.

Lemma every_slide_titled_witness :
  add_title_slide ∈ builders
  ∧ Forall titled (slides Presentation_new)
  ∧ ∃ r d', add_title_slide Presentation_new = (inr r, d')
            ∧ Forall titled (slides d').
Proof.
  assert (Hb : add_title_slide ∈ builders) by (unfold builders; constructor).
  assert (Hd : Forall titled (slides Presentation_new)) by constructor.
  split; [exact Hb |]. split; [exact Hd |].
  exact (proj1 (every_slide_titled add_title_slide Presentation_new Hb Hd)).
Defined.

(** C5: the body of the "Quality Metrics Monitored" slide holds twelve
    paragraphs: its header and one paragraph for each of the eleven metric
    entries, in order, each at level 1 and at 16pt. *)
Theorem metrics_slide_paragraphs :
  ∃ s header entries,
    slides document !! 3 = Some s
    ∧ slide_title s = Some "Quality Metrics Monitored"
    ∧ body_frame s = header :: entries
    ∧ p_text header = "Core Quality Parameters"
    ∧ length metrics = 11
    ∧ length entries = length metrics
    ∧ length (body_frame s) = 12
    ∧ p_text <$> entries = (λ metric, "• " +:+ metric) <$> metrics
    ∧ Forall (λ p, p_level p = 1 ∧ font_size p = Some (Pt 16)) entries.
Proof.
  eexists _, _, _.
  split; [vm_compute; reflexivity |].
  split; [vm_compute; reflexivity |].
  split; [vm_compute; reflexivity |].
  repeat split; repeat constructor.
Qed.

(** Every builder leaves the page size as it found it. *)
Lemma builders_keep_page_size :
  Forall (λ b : M SlideRef, ∀ d,
            slide_width (b d).2 = slide_width d
            ∧ slide_height (b d).2 = slide_height d)
         builders.
Proof.
  eapply Forall_impl; [apply builders_append |].
  intros b [s [_ Hb]] d. rewrite Hb. split; reflexivity.
Qed.

(** C6: the page size is set to 13.333in by 7.5in while the presentation
    has no slide yet; no builder changes it; the document every run builds,
    and the file a successful run saves, have exactly this size.  (The
    width is 305 EMU short of sixteen ninths of the height.) *)
Theorem page_size_fixed :
  ∀ w,
    save_fault w (output_path w) = NoFault →
    (set_slide_width (Inches 13.333%Q);; set_slide_height (Inches 7.5%Q))
      Presentation_new
    = (inr tt, {| slide_width := 12191695; slide_height := 6858000; slides := [] |})
    ∧ Forall (λ b : M SlideRef, ∀ d,
                slide_width (b d).2 = slide_width d
                ∧ slide_height (b d).2 = slide_height d)
             builders
    ∧ (∀ w', slide_width (prs (create_presentation w')) = Inches 13.333%Q
             ∧ slide_height (prs (create_presentation w')) = Inches 7.5%Q)
    ∧ (∃ d, files (world (create_presentation w)) !! output_path w
            = Some (Complete d)
            ∧ slide_width d = Inches 13.333%Q
            ∧ slide_height d = Inches 7.5%Q)
    ∧ (16 * Inches 7.5%Q - 9 * Inches 13.333%Q = 9 * 305)%Z.
Proof.
  intros w Hok.
  split; [reflexivity |].
  split; [exact builders_keep_page_size |].
  split.
  { intros w'. rewrite create_presentation_prs. split; vm_compute; reflexivity. }
  split; [| reflexivity].
  exists document. rewrite (create_presentation_saved w Hok).
  split; [apply lookup_insert_eq |].
  split; vm_compute; reflexivity.
Qed.

Lemma page_size_fixed_witness :
  save_fault writable_world (output_path writable_world) = NoFault
  ∧ ∀ w', slide_width (prs (create_presentation w')) = Inches 13.333%Q
          ∧ slide_height (prs (create_presentation w')) = Inches 7.5%Q.
Proof.
  split; [reflexivity |].
  exact (proj1 (proj2 (proj2 (page_size_fixed writable_world eq_refl)))).
Defined.

(** ** The formatting of body lines *)

#[local] Instance slide_rule_dec i p : Decision (slide_rule i p).
Proof. unfold slide_rule, unbolded. apply _. Defined.

Lemma elem_of_all_body_paragraphs d i s p :
  slides d !! i = Some s → p ∈ body_paragraphs s →
  (i, p) ∈ all_body_paragraphs d.
Proof.
  intros Hs Hp. unfold all_body_paragraphs. apply list_elem_of_join.
  exists ((λ p, (i, p)) <$> body_paragraphs s). split.
  - apply list_elem_of_fmap_2, Hp.
  - apply (elem_of_lookup_imap_2 (λ i s, (λ p, (i, p)) <$> body_paragraphs s)), Hs.
Qed.

(** A decidable property of the appended paragraphs holds of all of them
    as soon as its check over the document evaluates to true. *)
Lemma document_paragraphs_checked (P : nat → Paragraph → Prop)
    `{!∀ i p, Decision (P i p)} :
  bool_decide (Forall (λ ip, P ip.1 ip.2) (all_body_paragraphs document)) = true →
  ∀ i s p, slides document !! i = Some s → p ∈ body_paragraphs s → P i p.
Proof.
  intros Hcheck i s p Hs Hp. apply bool_decide_eq_true_1 in Hcheck.
  rewrite Forall_forall in Hcheck.
  exact (Hcheck (i, p) (elem_of_all_body_paragraphs document i s p Hs Hp)).
Qed.

Lemma document_follows_slide_rule :
  ∀ i s p,
    slides document !! i = Some s → 1 ≤ i → p ∈ body_paragraphs s →
    slide_rule i p.
Proof.
  intros i s p Hs Hi Hp.
  refine (document_paragraphs_checked (λ i p, 1 ≤ i → slide_rule i p)
            _ i s p Hs Hp Hi).
  vm_compute. reflexivity.
Qed.




(** ** Sub-bullets and the default level *)

Lemma plain_line_prefixes line :
  plain_line line = true →
  startswith line nl = false ∧ startswith line "  " = false.
Proof.
  unfold plain_line. intros H. apply andb_true_iff in H as [H1 H2].
  apply negb_true_iff in H1, H2. split; assumption.
Qed.

Lemma formats_level_given body fmt line :
  formats body fmt → level_given body line = Some (p_level (fmt line)).
Proof.
  intros Hbody. unfold level_given.
  rewrite (formats_paragraph_added body fmt line Hbody). reflexivity.
Qed.

Lemma trend_analysis_levels :
  default_level trend_analysis_body 1
  ∧ ∀ line, startswith line "  " = true →
            level_given trend_analysis_body line = Some 2.
Proof.
  split.
  - intros line [_ H2]%plain_line_prefixes.
    rewrite (formats_level_given _ _ line trend_analysis_body_formats).
    cbn. rewrite H2. reflexivity.
  - intros line H2.
    rewrite (formats_level_given _ _ line trend_analysis_body_formats).
    cbn. rewrite H2. reflexivity.
Qed.

Lemma future_enhancements_levels :
  default_level future_enhancements_body 0
  ∧ ∀ line, startswith line "  " = true →
            level_given future_enhancements_body line = Some 1.
Proof.
  split.
  - intros line [_ H2]%plain_line_prefixes.
    rewrite (formats_level_given _ _ line future_enhancements_body_formats).
    cbn. rewrite H2. reflexivity.
  - intros line H2.
    rewrite (formats_level_given _ _ line future_enhancements_body_formats).
    cbn. rewrite H2. reflexivity.
Qed.

Lemma two_spaces_not_line_feed line :
  startswith line "  " = true → startswith line nl = false.
Proof.
  destruct line as [|c line]; [discriminate |].
  unfold startswith, nl. cbn [String.prefix].
  destruct (ascii_dec " " c) as [<- | _]; [| discriminate].
  intros _. reflexivity.
Qed.

Lemma advanced_analytics_levels :
  default_level advanced_analytics_body 1
  ∧ (∀ line, startswith line "  " = true →
             level_given advanced_analytics_body line = Some 1)
  ∧ (∀ line, startswith line nl = true →
             level_given advanced_analytics_body line = Some 0).
Proof.
  split; [| split].
  - intros line [H1 _]%plain_line_prefixes.
    rewrite (formats_level_given _ _ line advanced_analytics_body_formats).
    cbn. rewrite H1. reflexivity.
  - intros line H2%two_spaces_not_line_feed.
    rewrite (formats_level_given _ _ line advanced_analytics_body_formats).
    cbn. rewrite H2. reflexivity.
  - intros line H1.
    rewrite (formats_level_given _ _ line advanced_analytics_body_formats).
    cbn. rewrite H1. reflexivity.
Qed.

(** Where the document has two-space lines, and at which level. *)
Lemma document_sub_bullets :
  ∀ i s p,
    slides document !! i = Some s → p ∈ body_paragraphs s →
    startswith (p_text p) "  " = true →
    (i = 5 ∧ p_level p = 2) ∨ ((i = 6 ∨ i = 10) ∧ p_level p = 1).
Proof.
  refine (document_paragraphs_checked
            (λ i p, startswith (p_text p) "  " = true →
                    (i = 5 ∧ p_level p = 2) ∨ ((i = 6 ∨ i = 10) ∧ p_level p = 1))
            _).
  vm_compute. reflexivity.
Qed.

(** C7, as stated, fails: the loop of the "Advanced Analytics Dashboard"
    slide gives every line without prefix level 1, and gives the two-space
    line "  • Process Capability Index (Cpk) analysis" of its list level 1
    as well, not level 2. *)
Lemma sub_bullet_one_deeper_counterexample :
  ((advanced_analytics_body, tabs) ∈ body_loops
   ∧ default_level advanced_analytics_body 1
   ∧ tabs_second_line ∈ tabs
   ∧ startswith tabs_second_line "  " = true
   ∧ level_given advanced_analytics_body tabs_second_line = Some 1)
  ∧ ¬ (∀ body lines d line,
         (body, lines) ∈ body_loops → default_level body d →
         line ∈ lines → startswith line "  " = true →
         level_given body line = Some (S d)).
Proof.
  assert (Hloop : (advanced_analytics_body, tabs) ∈ body_loops)
    by (apply list_elem_of_lookup_2 with 5; reflexivity).
  assert (Hline : tabs_second_line ∈ tabs)
    by (apply list_elem_of_lookup_2 with 1; reflexivity).
  destruct advanced_analytics_levels as [Hdef [Hsub _]].
  split.
  - split; [exact Hloop |]. split; [exact Hdef |]. split; [exact Hline |].
    split; [reflexivity | apply Hsub; reflexivity].
  - intros Hclaim.
    pose proof (Hclaim _ _ 1 tabs_second_line Hloop Hdef Hline eq_refl) as H2.
    rewrite (Hsub tabs_second_line eq_refl) in H2. discriminate H2.
Qed.

(** C7, amended: a line beginning with two spaces is rendered one level
    deeper than the default body level by the loops of the trend slide
    (2 against 1) and of the future enhancements slide (1 against 0).  The
    loop of the advanced analytics slide renders it at level 1, which is
    that slide's default body level, one level deeper than its line-feed
    headings (level 0).  The document has two-space lines on these three
    slides only, at levels 2, 1 and 1. *)
Theorem sub_bullet_levels :
  ∀ line,
    startswith line "  " = true →
    (default_level trend_analysis_body 1
     ∧ level_given trend_analysis_body line = Some 2)
    ∧ (default_level future_enhancements_body 0
       ∧ level_given future_enhancements_body line = Some 1)
    ∧ (default_level advanced_analytics_body 1
       ∧ level_given advanced_analytics_body line = Some 1
       ∧ ∀ heading, startswith heading nl = true →
                    level_given advanced_analytics_body heading = Some 0)
    ∧ (∀ i s p,
         slides document !! i = Some s → p ∈ body_paragraphs s →
         startswith (p_text p) "  " = true →
         (i = 5 ∧ p_level p = 2) ∨ ((i = 6 ∨ i = 10) ∧ p_level p = 1)).
Proof.
  intros line Hline.
  destruct trend_analysis_levels as [Ht1 Ht2].
  destruct future_enhancements_levels as [Hf1 Hf2].
  destruct advanced_analytics_levels as [Ha1 [Ha2 Ha3]].
  split; [split; [exact Ht1 | exact (Ht2 line Hline)] |].
  split; [split; [exact Hf1 | exact (Hf2 line Hline)] |].
  split; [split; [exact Ha1 | split; [exact (Ha2 line Hline) | exact Ha3]] |].
  exact document_sub_bullets.
Qed.

Lemma sub_bullet_levels_witness :
  startswith tabs_second_line "  " = true
  ∧ level_given trend_analysis_body tabs_second_line = Some 2
  ∧ level_given advanced_analytics_body tabs_second_line = Some 1.
Proof.
  split; [reflexivity |].
  pose proof (sub_bullet_levels tabs_second_line eq_refl) as [Ht [_ [Ha _]]].
  split; [exact (proj2 Ht) | exact (proj1 (proj2 Ha))].
Defined.

(** ** The guard of the future enhancements loop *)

Lemma enhancements_not_potential_additions :
  Forall (λ item, String.eqb item "Potential Additions" = false) enhancements.
Proof. unfold enhancements. repeat constructor. Qed.

(** The body of the future enhancements slide: its opening paragraph,
    then one paragraph for each entry of [enhancements]. *)
Lemma future_enhancements_slide_body :
  ∃ s header,
    slides document !! 10 = Some s
    ∧ slide_title s = Some "Future Enhancement Opportunities"
    ∧ body_frame s = header :: (future_enhancements_paragraph <$> enhancements)
    ∧ p_text header = "Potential Additions".
Proof.
  eexists _, _. split; [vm_compute; reflexivity |].
  repeat split; vm_compute; reflexivity.
Qed.



(** * Further properties of the code *)

(** ** Builder calls on any presentation *)

Lemma builders_append_forall b :
  b ∈ builders → ∃ s, slide_built b = Some s ∧ appends_slide b s.
Proof.
  intros Hb. pose proof builders_append as Hall.
  rewrite Forall_forall in Hall. exact (Hall b Hb).
Qed.

(** X1: a builder called on any presentation does not raise, returns the
    position of the new last slide, leaves the page size and the slides
    there were untouched, and appends exactly one slide, the same slide
    whatever the presentation held before. *)
Theorem builder_call_appends_one_slide :
  ∀ b d,
    b ∈ builders →
    ∃ s, slide_built b = Some s
         ∧ b d = (inr (length (slides d)),
                  {| slide_width := slide_width d;
                     slide_height := slide_height d;
                     slides := slides d ++ [s] |}).
Proof.
  intros b d Hb. destruct (builders_append_forall b Hb) as [s [Hs Happ]].
  exists s. split; [exact Hs | apply Happ].
Qed.

Lemma builder_call_appends_one_slide_witness :
  add_conclusion_slide ∈ builders
  ∧ ∃ s, slide_built add_conclusion_slide = Some s
         ∧ add_conclusion_slide document
           = (inr 12, {| slide_width := slide_width document;
                         slide_height := slide_height document;
                         slides := slides document ++ [s] |}).
Proof.
  assert (Hb : add_conclusion_slide ∈ builders)
    by (apply list_elem_of_lookup_2 with 11; reflexivity).
  split; [exact Hb |].
  exact (builder_call_appends_one_slide add_conclusion_slide document Hb).
Defined.

Lemma build_slides_appends :
  ∃ ss, ∀ d,
    build_slides d
    = (inr tt, {| slide_width := Inches 13.333%Q;
                  slide_height := Inches 7.5%Q;
                  slides := slides d ++ ss |}).
Proof.
  destruct add_title_slide_appends as [s1 H1].
  destruct add_overview_slide_appends as [s2 H2].
  destruct add_key_features_slide_appends as [s3 H3].
  destruct add_metrics_monitored_slide_appends as [s4 H4].
  destruct add_machine_parameters_slide_appends as [s5 H5].
  destruct add_trend_analysis_slide_appends as [s6 H6].
  destruct add_advanced_analytics_slide_appends as [s7 H7].
  destruct add_insights_slide1_appends as [s8 H8].
  destruct add_insights_slide2_appends as [s9 H9].
  destruct add_technical_features_slide_appends as [s10 H10].
  destruct add_future_enhancements_slide_appends as [s11 H11].
  destruct add_conclusion_slide_appends as [s12 H12].
  exists [s1; s2; s3; s4; s5; s6; s7; s8; s9; s10; s11; s12]. intros d.
  unfold build_slides, mbind, M_bind, set_slide_width, set_slide_height, modify.
  rewrite H1, H2, H3, H4, H5, H6, H7, H8, H9, H10, H11, H12.
  cbv beta iota delta [mret M_ret with_slides slide_width slide_height slides].
  rewrite <- !app_assoc. reflexivity.
Qed.

(** X2: the statements of [create_presentation] that build the slides,
    started on any presentation, do not raise; they set the page size and
    append the twelve slides of [document], in order, after the slides the
    presentation already had, which they leave as they were. *)
Theorem build_slides_on_any_presentation :
  ∀ d,
    build_slides d
    = (inr tt, {| slide_width := Inches 13.333%Q;
                  slide_height := Inches 7.5%Q;
                  slides := slides d ++ slides document |}).
Proof.
  destruct build_slides_appends as [ss Hss]. intros d.
  assert (Hdoc : slides document = ss).
  { unfold document. rewrite (Hss Presentation_new). reflexivity. }
  rewrite Hdoc. apply Hss.
Qed.

(** ** The loop bodies on any line *)

Lemma line_feed_not_two_spaces line :
  startswith line nl = true → startswith line "  " = false.
Proof.
  intros Hnl. destruct (startswith line "  ") eqn:Hsp; [| reflexivity].
  rewrite (two_spaces_not_line_feed line Hsp) in Hnl. discriminate Hnl.
Qed.








(** ** The loops on any list of lines *)

Lemma ph_lookup_alter_ne f j k phs :
  j ≠ k → ph_lookup j (ph_alter f k phs) = ph_lookup j phs.
Proof.
  intros Hjk. induction phs as [|[i tf] phs IH]; [reflexivity |].
  cbn. destruct (Nat.eqb i k) eqn:Hik; cbn.
  - apply Nat.eqb_eq in Hik. subst i.
    destruct (Nat.eqb k j) eqn:Hkj; [| reflexivity].
    apply Nat.eqb_eq in Hkj. congruence.
  - rewrite IH. reflexivity.
Qed.

(** X7: a loop whose body appends one formatted paragraph per line, run
    over any list of lines on a text frame of the slide being built, does
    not raise and appends the paragraphs of the lines, in the order of the
    list, after the paragraphs the frame already had; the other
    placeholders and the layout of the slide stay as they were, and an
    empty list changes nothing. *)
Theorem loop_appends_in_order :
  ∀ body fmt lines w h l k s tf,
    formats body fmt →
    ph_lookup k (placeholders s) = Some tf →
    ∃ s',
      for_ lines (body (length l, k)) (focus w h l s) = (inr tt, focus w h l s')
      ∧ slide_layout s' = slide_layout s
      ∧ ph_lookup k (placeholders s') = Some (tf ++ (fmt <$> lines))
      ∧ (∀ j, j ≠ k → ph_lookup j (placeholders s') = ph_lookup j (placeholders s))
      ∧ (lines = [] → s' = s).
Proof.
  intros body fmt lines w h l k s tf Hbody Hk.
  exists (slide_alter_tf (λ ps, ps ++ (fmt <$> lines)) k s).
  split; [exact (runs_for_formats body fmt w h l k lines Hbody s tf Hk) |].
  split; [reflexivity |].
  split; [cbn; rewrite ph_lookup_alter, Hk; reflexivity |].
  split; [intros j Hj; cbn; apply ph_lookup_alter_ne, Hj |].
  intros ->. apply slide_alter_tf_id.
Qed.

Lemma loop_appends_in_order_witness :
  formats metrics_body metrics_paragraph
  ∧ ph_lookup 1 (placeholders (new_slide TitleAndContent)) = Some [new_paragraph]
  ∧ ∃ s',
      for_ ["GSM"; "Bulk"] (metrics_body (0, 1))
        (focus 9144000 6858000 [] (new_slide TitleAndContent))
      = (inr tt, focus 9144000 6858000 [] s')
      ∧ ph_lookup 1 (placeholders s')
        = Some [new_paragraph; metrics_paragraph "GSM"; metrics_paragraph "Bulk"].
Proof.
  split; [exact metrics_body_formats |]. split; [reflexivity |].
  destruct (loop_appends_in_order metrics_body metrics_paragraph ["GSM"; "Bulk"]
              9144000 6858000 [] 1 (new_slide TitleAndContent) [new_paragraph]
              metrics_body_formats eq_refl) as [s' [Hrun [_ [Hbody _]]]].
  exists s'. split; [exact Hrun | exact Hbody].
Defined.

(** ** Runs of the script in any world *)

Lemma create_presentation_cases w :
  (save_fault w (output_path w) = NoFault
   ∧ create_presentation w =
       {| result := inr output_filename; prs := document;
          world := print ("Presentation saved as " +:+ output_filename)
                     (write_file (output_path w) (Complete document) w) |})
  ∨ (∃ e, save_fault w (output_path w) = FailBeforeWrite e
          ∧ create_presentation w
            = {| result := inl e; prs := document; world := w |})
  ∨ (∃ e, save_fault w (output_path w) = FailMidWrite e
          ∧ create_presentation w
            = {| result := inl e; prs := document;
                 world := write_file (output_path w) Truncated w |}).
Proof.
  destruct (save_fault w (output_path w)) as [|e|e] eqn:Hs.
  - left. split; [reflexivity | apply create_presentation_saved, Hs].
  - right. left. exists e. split; [reflexivity |].
    apply create_presentation_fail_before, Hs.
  - right. right. exists e. split; [reflexivity |].
    apply create_presentation_fail_mid, Hs.
Qed.

(** X8: whether it succeeds or fails, a run leaves every file other than
    the output file as it was, leaves the working directory as it was, and
    only adds to what was printed before. *)
Theorem create_presentation_touches_only_output :
  ∀ w path,
    path ≠ output_path w →
    files (world (create_presentation w)) !! path = files w !! path
    ∧ cwd (world (create_presentation w)) = cwd w
    ∧ stdout w `prefix_of` stdout (world (create_presentation w)).
Proof.
  intros w path Hpath.
  destruct (create_presentation_cases w)
    as [[_ ->] | [[e [_ ->]] | [e [_ ->]]]];
    cbn [world files stdout cwd print write_file].
  - split; [apply lookup_insert_ne; congruence |].
    split; [reflexivity | apply prefix_app_r; reflexivity].
  - split; [reflexivity |]. split; reflexivity.
  - split; [apply lookup_insert_ne; congruence |]. split; reflexivity.
Qed.

Lemma create_presentation_touches_only_output_witness :
  "/home/qa/notes.txt" ≠ output_path cluttered_world
  ∧ files (world (create_presentation cluttered_world)) !! "/home/qa/notes.txt"
    = files cluttered_world !! "/home/qa/notes.txt"
  ∧ cwd (world (create_presentation cluttered_world)) = cwd cluttered_world
  ∧ stdout cluttered_world
      `prefix_of` stdout (world (create_presentation cluttered_world)).
Proof.
  assert (Hpath : "/home/qa/notes.txt" ≠ output_path cluttered_world)
    by (vm_compute; discriminate).
  split; [exact Hpath |].
  exact (create_presentation_touches_only_output cluttered_world
           "/home/qa/notes.txt" Hpath).
Defined.

(** X9: when the file can be written, whatever the path held before is
    replaced by the document, and running the script a second time returns
    the same path, leaves the files exactly as the first run left them and
    prints the confirmation line a second time. *)
Theorem create_presentation_rerun :
  ∀ w,
    save_fault w (output_path w) = NoFault →
    let r1 := create_presentation w in
    let r2 := create_presentation (world r1) in
    files (world r1) !! output_path w = Some (Complete document)
    ∧ result r2 = result r1
    ∧ prs r2 = prs r1
    ∧ files (world r2) = files (world r1)
    ∧ stdout (world r2) = stdout w ++ [confirmation_line; confirmation_line].
Proof.
  intros w Hok r1 r2. subst r1 r2.
  rewrite (create_presentation_saved w Hok).
  cbn [world].
  set (w1 := print _ (write_file (output_path w) (Complete document) w)).
  assert (Hpath : output_path w1 = output_path w) by reflexivity.
  assert (Hok1 : save_fault w1 (output_path w1) = NoFault)
    by (rewrite Hpath; exact Hok).
  rewrite (create_presentation_saved w1 Hok1), Hpath.
  subst w1. cbn [world files stdout print write_file result prs].
  split; [apply lookup_insert_eq |].
  split; [reflexivity |]. split; [reflexivity |].
  split; [apply insert_insert_eq |].
  rewrite <- app_assoc. reflexivity.
Qed.

Lemma create_presentation_rerun_witness :
  save_fault cluttered_world (output_path cluttered_world) = NoFault
  ∧ files cluttered_world !! output_path cluttered_world = Some Truncated
  ∧ files (world (create_presentation cluttered_world))
      !! output_path cluttered_world
    = Some (Complete document).
Proof.
  split; [reflexivity |]. split; [vm_compute; reflexivity |].
  exact (proj1 (create_presentation_rerun cluttered_world eq_refl)).
Defined.

(** X10: the only exception a run can raise is the one the save raises:
    building the slides never fails, so a run that raises has built the
    whole document and was stopped by the file system. *)
Theorem create_presentation_raises_only_from_save :
  ∀ w e,
    result (create_presentation w) = inl e →
    (save_fault w (output_path w) = FailBeforeWrite e
     ∨ save_fault w (output_path w) = FailMidWrite e)
    ∧ length (slides (prs (create_presentation w))) = 12.
Proof.
  intros w e Hres. split; [| rewrite create_presentation_prs; apply document_length].
  destruct (create_presentation_cases w)
    as [[_ Hrun] | [[e' [Hs Hrun]] | [e' [Hs Hrun]]]];
    rewrite Hrun in Hres; cbn [result] in Hres.
  - discriminate Hres.
  - injection Hres as ->. left. exact Hs.
  - injection Hres as ->. right. exact Hs.
Qed.

Lemma create_presentation_raises_only_from_save_witness :
  result (create_presentation failing_world) = inl OSError
  ∧ (save_fault failing_world (output_path failing_world) = FailBeforeWrite OSError
     ∨ save_fault failing_world (output_path failing_world) = FailMidWrite OSError).
Proof.
  assert (Hres : result (create_presentation failing_world) = inl OSError)
    by (rewrite (create_presentation_fail_mid failing_world OSError eq_refl);
        reflexivity).
  split; [exact Hres |].
  exact (proj1 (create_presentation_raises_only_from_save failing_world OSError Hres)).
Defined.

(** ** Levels *)

Lemma formats_level_bound body fmt line :
  formats body fmt →
  p_level (fmt line) ≤ 2 →
  (p_text (fmt line) = line ∨ p_text (fmt line) = "• " +:+ line) →
  ∃ p, paragraph_added body line = Some p
       ∧ p_level p ≤ 2
       ∧ (p_text p = line ∨ p_text p = "• " +:+ line).
Proof.
  intros Hbody Hlevel Htext. exists (fmt line).
  split; [apply formats_paragraph_added, Hbody |].
  split; [exact Hlevel | exact Htext].
Qed.


